(** * Session manager of the therapy chatbot backend (backend/backend.py)

    A shallow embedding of [ConnectionManager] and of the FastAPI endpoints
    that drive it, followed by the properties of the session store.

    Conventions of the embedding.
    - A Python [str] is a [string]; each character stands for a code point
      below 256, which is all [str.strip] needs to be told about here.
    - The three dictionaries of [ConnectionManager] are finite maps keyed by
      the client id.
    - A Gemini [ChatSession] is an object held by reference: the store keeps
      its identity, the conversation itself lives with the provider.
    - Everything the process does not decide itself (the value of
      [uuid.uuid4()], whether a provider call returns or raises, and what it
      returns) is read from a [World], one per request.
    - A raised exception is a value: functions return a [result]. *)

From Stdlib Require Import Ascii String.
From stdpp Require Import gmap strings list fin_maps.

Open Scope string_scope.
Open Scope list_scope.

(** ** Data model *)

(** [class AIModel(str, Enum)] *)
Inductive AIModel := GPT4 | GEMINI.

Definition AIModel_value (m : AIModel) : string :=
  match m with GPT4 => "gpt4" | GEMINI => "gemini" end.

#[global] Instance AIModel_eq_dec : EqDecision AIModel.
Proof. solve_decision. Defined.

(** One entry of a chat history: [{"role": r, "content": c}]. *)
Record turn := Turn { role : string; content : string }.

#[global] Instance turn_eq_dec : EqDecision turn.
Proof. solve_decision. Defined.

Definition SYSTEM_PROMPT : string :=
"You are an empathetic and professional therapist.
Your responses should be:
- Compassionate and understanding
- Non-judgmental and supportive
- Professional yet warm
- Using reflective listening
- Asking open-ended questions".

(** The literal [{"role": "system", "content": SYSTEM_PROMPT}]. *)
Definition system_turn : turn := Turn "system" SYSTEM_PROMPT.

(** A [ChatSession] object of the Gemini client, known by its identity. *)
Record ChatSession := ChatRef { chat_oid : nat }.

#[global] Instance ChatSession_eq_dec : EqDecision ChatSession.
Proof. solve_decision. Defined.

(** [ConnectionManager.__init__]: the three dictionaries. *)
Record ConnectionManager := Manager {
  chat_histories : gmap string (list turn);
  gemini_chats : gmap string ChatSession;
  client_models : gmap string AIModel
}.

Definition init : ConnectionManager := Manager ∅ ∅ ∅.

Definition with_chat_histories (f : gmap string (list turn) → gmap string (list turn))
    (self : ConnectionManager) : ConnectionManager :=
  Manager (f (chat_histories self)) (gemini_chats self) (client_models self).

Definition with_gemini_chats (f : gmap string ChatSession → gmap string ChatSession)
    (self : ConnectionManager) : ConnectionManager :=
  Manager (chat_histories self) (f (gemini_chats self)) (client_models self).

Definition with_client_models (f : gmap string AIModel → gmap string AIModel)
    (self : ConnectionManager) : ConnectionManager :=
  Manager (chat_histories self) (gemini_chats self) (f (client_models self)).

(** ** The outside world *)

(** What [chat.send_message] hands back; [text] is [None] when reading
    [response.text] raises. *)
Record GenerateContentResponse := Response { text : option string }.

(** What [azure_client.chat.completions.create] hands back: for each choice
    its [message.content], which may be [None]. *)
Record ChatCompletion := Completion { choices : list (option string) }.

(** The answers of the environment during one request.  A provider call
    that raises answers [None]. *)
Record World := {
  uuid4 : string;
  send_message : ChatSession → string → option GenerateContentResponse;
  completions_create : list turn → option ChatCompletion
}.

(** The provider calls a request made, in order. *)
Inductive call :=
  | StartChat (chat : ChatSession)
  | SendMessage (chat : ChatSession) (message : string)
  | CompletionsCreate (messages : list turn).

(** ** Exceptions *)

Inductive exn :=
  | HTTPException (status_code : nat) (detail : string)
  | ProviderException.

Inductive result (A : Type) :=
  | Return (a : A)
  | Raise (e : exn).
Arguments Return {A} a.
Arguments Raise {A} e.

(** What a method leaves behind: the manager after it ran, the provider
    calls it made and what it returned or raised. *)
Record outcome (A : Type) := Outcome {
  after : ConnectionManager;
  calls : list call;
  value : result A
}.
Arguments Outcome {A} after calls value.
Arguments after {A} o.
Arguments calls {A} o.
Arguments value {A} o.

(** ** [str.strip] *)

(** [str.isspace] on code points below 256. *)
Definition isspace (c : ascii) : bool :=
  let n := nat_of_ascii c in
  (((9 <=? n) && (n <=? 13)) || ((28 <=? n) && (n <=? 32))
   || (n =? 133) || (n =? 160))%nat.

Fixpoint lstrip (s : string) : string :=
  match s with
  | EmptyString => EmptyString
  | String c s' => if isspace c then lstrip s' else s
  end.

Fixpoint rstrip (s : string) : string :=
  match s with
  | EmptyString => EmptyString
  | String c s' =>
      match rstrip s' with
      | EmptyString => if isspace c then EmptyString else String c EmptyString
      | r => String c r
      end
  end.

Definition strip (s : string) : string := rstrip (lstrip s).

Fixpoint all_space (s : string) : bool :=
  match s with
  | EmptyString => true
  | String c s' => isspace c && all_space s'
  end.

(** The first character of [s], if any, is not white space. *)
Definition starts_clean (s : string) : bool :=
  match s with
  | EmptyString => true
  | String c _ => negb (isspace c)
  end.

(** The last character of [s], if any, is not white space. *)
Fixpoint ends_clean (s : string) : bool :=
  match s with
  | EmptyString => true
  | String c EmptyString => negb (isspace c)
  | String _ s' => ends_clean s'
  end.

(** ** [ConnectionManager] methods *)

(** [get_history]: the stored list itself, or a new one-turn list. *)
Definition get_history (self : ConnectionManager) (client_id : string) : list turn :=
  default [system_turn] (chat_histories self !! client_id).

(** [add_message]: appends in place when the client has a history. *)
Definition add_message (self : ConnectionManager) (client_id role content : string)
    : ConnectionManager :=
  match chat_histories self !! client_id with
  | Some h => with_chat_histories (<[client_id := h ++ [Turn role content]]>) self
  | None => self
  end.

(** [create_session]; [chat] is the object [start_chat] constructs. *)
Definition create_session (self : ConnectionManager) (w : World) (chat : ChatSession)
    (model : AIModel) : outcome (string * AIModel) :=
  let client_id := uuid4 w in
  let self := with_client_models (<[client_id := model]>) self in
  match model with
  | GEMINI =>
      let made := [StartChat chat; SendMessage chat SYSTEM_PROMPT] in
      match send_message w chat SYSTEM_PROMPT with
      | None => Outcome self made (Raise ProviderException)
      | Some _ =>
          Outcome (with_gemini_chats (<[client_id := chat]>) self) made
                  (Return (client_id, model))
      end
  | GPT4 =>
      Outcome (with_chat_histories (<[client_id := [system_turn]]>) self) []
              (Return (client_id, model))
  end.

(** The body of the [try] of [get_ai_response].  A [ChatSession] is a plain
    object, hence true, so [not chat] holds exactly when [gemini_chats] has
    no entry for the client.  In the GPT-4 branch
    [messages] is the list [get_history] returned: when the client has a
    stored history it is that very list, so [messages.append] adds the user
    turn to the store before the provider is called; otherwise it is a new
    list that nothing else refers to. *)
Definition get_ai_response_try (self : ConnectionManager) (w : World)
    (client_id message : string) (model : AIModel) : outcome (string * AIModel) :=
  match model with
  | GEMINI =>
      match gemini_chats self !! client_id with
      | None => Outcome self [] (Raise (HTTPException 400 "Invalid client_id for Gemini."))
      | Some chat =>
          let made := [SendMessage chat message] in
          match send_message w chat message with
          | None => Outcome self made (Raise ProviderException)
          | Some response =>
              match text response with
              | None => Outcome self made (Raise ProviderException)
              | Some t => Outcome self made (Return (t, model))
              end
          end
      end
  | GPT4 =>
      let messages := get_history self client_id ++ [Turn "user" message] in
      let self :=
        match chat_histories self !! client_id with
        | Some _ => with_chat_histories (<[client_id := messages]>) self
        | None => self
        end in
      let made := [CompletionsCreate messages] in
      match completions_create w messages with
      | None => Outcome self made (Raise ProviderException)
      | Some completion =>
          match choices completion with
          | Some c :: _ =>
              let response := strip c in
              Outcome (add_message self client_id "assistant" response) made
                      (Return (response, model))
          | _ => Outcome self made (Raise ProviderException)
          end
      end
  end.

(** [get_ai_response]: [except Exception] catches whatever the body raised,
    the [HTTPException] of the Gemini branch included. *)
Definition get_ai_response (self : ConnectionManager) (w : World)
    (client_id message : string) : outcome (string * AIModel) :=
  let model := default GPT4 (client_models self !! client_id) in
  let o := get_ai_response_try self w client_id message model in
  match value o with
  | Return r => o
  | Raise _ =>
      Outcome (after o) (calls o) (Raise (HTTPException 500 "Internal Server Error"))
  end.

(** [switch_model]; [chat] is the object [start_chat] constructs. *)
Definition switch_model (self : ConnectionManager) (w : World) (chat : ChatSession)
    (client_id : string) (new_model : AIModel) : outcome AIModel :=
  match client_models self !! client_id with
  | None => Outcome self [] (Raise (HTTPException 400 "Invalid client_id"))
  | Some _ =>
      let self := with_client_models (<[client_id := new_model]>) self in
      match new_model with
      | GEMINI =>
          let made := [StartChat chat; SendMessage chat SYSTEM_PROMPT] in
          match send_message w chat SYSTEM_PROMPT with
          | None => Outcome self made (Raise ProviderException)
          | Some _ =>
              Outcome (with_chat_histories (delete client_id)
                         (with_gemini_chats (<[client_id := chat]>) self))
                      made (Return new_model)
          end
      | GPT4 =>
          Outcome (with_gemini_chats (delete client_id)
                     (with_chat_histories (<[client_id := [system_turn]]>) self))
                  [] (Return new_model)
      end
  end.

(** [end_session]: three [pop(client_id, None)]. *)
Definition end_session (self : ConnectionManager) (client_id : string)
    : ConnectionManager :=
  with_client_models (delete client_id)
    (with_gemini_chats (delete client_id)
       (with_chat_histories (delete client_id) self)).

(** ** The process: the module-level [manager] and the object allocator *)

(** [next_chat] numbers the [ChatSession] objects constructed so far, so
    that every [start_chat] yields an object distinct from the earlier ones. *)
Record process := Process { manager : ConnectionManager; next_chat : nat }.

(** [manager = ConnectionManager()] at import time. *)
Definition boot : process := Process init 0.

Definition fresh_chat (p : process) : ChatSession := ChatRef (next_chat p).

(** The number of [ChatSession] objects a request constructed. *)
Fixpoint allocated (made : list call) : nat :=
  match made with
  | [] => 0
  | StartChat _ :: made' => S (allocated made')
  | _ :: made' => allocated made'
  end.

Definition commit {A} (p : process) (o : outcome A) : process :=
  Process (after o) (next_chat p + allocated (calls o)).

(** One call of a [ConnectionManager] method on the module-level manager. *)
Inductive op :=
  | CreateSession (model : AIModel)
  | GetAIResponse (client_id message : string)
  | SwitchModel (client_id : string) (new_model : AIModel)
  | EndSession (client_id : string).

Definition exec (p : process) (c : op) (w : World) : process :=
  match c with
  | CreateSession model =>
      commit p (create_session (manager p) w (fresh_chat p) model)
  | GetAIResponse client_id message =>
      commit p (get_ai_response (manager p) w client_id message)
  | SwitchModel client_id new_model =>
      commit p (switch_model (manager p) w (fresh_chat p) client_id new_model)
  | EndSession client_id =>
      Process (end_session (manager p) client_id) (next_chat p)
  end.

Fixpoint run_from (p : process) (trace : list (op * World)) : process :=
  match trace with
  | [] => p
  | (c, w) :: trace' => run_from (exec p c w) trace'
  end.

(** The process after a sequence of method calls, each in its own world. *)
Definition run (trace : list (op * World)) : process := run_from boot trace.

(** ** The endpoints *)

Inductive body :=
  | Alive
  | StartResponse (client_id : string) (model : AIModel)
  | AIResponse (response : string) (model : AIModel)
  | Detail (detail : string).

Inductive http :=
  | Ok (b : body)
  | Error (status_code : nat) (detail : string).

(** How an exception that leaves an endpoint reaches the client: an
    [HTTPException] with its own status, anything else as a 500 (through
    [except Exception] where the endpoint has one, through the framework
    otherwise). *)
Definition error_of (e : exn) : http :=
  match e with
  | HTTPException status_code detail => Error status_code detail
  | ProviderException => Error 500 "Internal Server Error"
  end.

Record served := Served { proc : process; made : list call; reply : http }.

Module App.

Definition ping : http := Ok Alive.

Definition start_conversation (p : process) (w : World) (model : AIModel) : served :=
  let o := create_session (manager p) w (fresh_chat p) model in
  Served (commit p o) (calls o)
    match value o with
    | Return (client_id, model) => Ok (StartResponse client_id model)
    | Raise e => error_of e
    end.

Definition get_message (p : process) (w : World) (client_id message : string) : served :=
  let o := get_ai_response (manager p) w client_id (strip message) in
  Served (commit p o) (calls o)
    match value o with
    | Return (response, model) => Ok (AIResponse response model)
    | Raise e => error_of e
    end.

Definition switch_model (p : process) (w : World) (client_id : string)
    (model : AIModel) : served :=
  let o := switch_model (manager p) w (fresh_chat p) client_id model in
  Served (commit p o) (calls o)
    match value o with
    | Return new_model =>
        Ok (AIResponse ("Switched to " +:+ AIModel_value new_model +:+ " model") new_model)
    | Raise e => error_of e
    end.

Definition end_conversation (p : process) (client_id : string) : served :=
  Served (Process (end_session (manager p) client_id) (next_chat p)) []
         (Ok (Detail "Conversation ended")).

End App.

(** ** Worlds used in the examples *)

(** Both providers answer. *)
Definition answering (id : string) : World :=
  {| uuid4 := id;
     send_message := λ _ _, Some (Response (Some "Tell me more."));
     completions_create := λ _, Some (Completion [Some " I hear you. "]) |}.

(** Both providers raise. *)
Definition failing (id : string) : World :=
  {| uuid4 := id;
     send_message := λ _ _, None;
     completions_create := λ _, None |}.

(** ** Well-formed histories and consistent processes *)

Definition is_system (t : turn) : bool := String.eqb (role t) "system".

(** The history is the persona turn followed by turns of other roles. *)
Definition persona_headed (h : list turn) : bool :=
  match h with
  | [] => false
  | t :: rest => bool_decide (t = system_turn) && forallb (λ t, negb (is_system t)) rest
  end.

(** What every process reached from [boot] satisfies. *)
Record consistent (p : process) : Prop := Consistent {
  histories_headed : ∀ id h,
    chat_histories (manager p) !! id = Some h → persona_headed h = true;
  histories_known : ∀ id,
    client_models (manager p) !! id = None → chat_histories (manager p) !! id = None;
  chats_known : ∀ id,
    client_models (manager p) !! id = None → gemini_chats (manager p) !! id = None;
  histories_kept : ∀ id,
    client_models (manager p) !! id = Some GPT4 →
    is_Some (chat_histories (manager p) !! id);
  chats_allocated : ∀ id chat,
    gemini_chats (manager p) !! id = Some chat → chat_oid chat < next_chat p;
  chats_distinct : ∀ id1 id2 chat,
    gemini_chats (manager p) !! id1 = Some chat →
    gemini_chats (manager p) !! id2 = Some chat → id1 = id2
}.

(** ** Histories as dialogues *)

Definition has_role (r : string) (t : turn) : bool := String.eqb (role t) r.

(** Every turn is a user turn or an assistant turn, and an assistant turn
    comes right after a user turn; [prev] is the role of the turn before. *)
Fixpoint answers_follow (prev : string) (h : list turn) : bool :=
  match h with
  | [] => true
  | t :: h' =>
      (has_role "user" t || (has_role "assistant" t && String.eqb prev "user"))
      && answers_follow (role t) h'
  end.

(** The persona turn, then user turns, each answered at most once. *)
Definition dialogue (h : list turn) : bool :=
  match h with
  | [] => false
  | t :: rest => bool_decide (t = system_turn) && answers_follow "system" rest
  end.

(** ** Traces *)

(** The client id a method call is about. *)
Definition subject (c : op) (w : World) : string :=
  match c with
  | CreateSession _ => uuid4 w
  | GetAIResponse client_id _ => client_id
  | SwitchModel client_id _ => client_id
  | EndSession client_id => client_id
  end.

(** Every [create_session] of the trace drew an id that no recorded client
    had at that time. *)
Fixpoint fresh_ids_from (p : process) (trace : list (op * World)) : bool :=
  match trace with
  | [] => true
  | (c, w) :: trace' =>
      match c with
      | CreateSession _ => bool_decide (client_models (manager p) !! uuid4 w = None)
      | _ => true
      end
      && fresh_ids_from (exec p c w) trace'
  end.

Definition fresh_ids (trace : list (op * World)) : bool := fresh_ids_from boot trace.

(** Every stored history is a dialogue. *)
Definition dialogues (p : process) : Prop :=
  ∀ id h, chat_histories (manager p) !! id = Some h → dialogue h = true.

(** No client has both a history and a Gemini chat. *)
Definition exclusive (p : process) : Prop :=
  ∀ id, chat_histories (manager p) !! id = None ∨ gemini_chats (manager p) !! id = None.

(** * Properties *)

Section Histories.

Lemma persona_headed_single : persona_headed [system_turn] = true.
Proof. reflexivity. Qed.

Lemma persona_headed_snoc h r c :
  persona_headed h = true → String.eqb r "system" = false →
  persona_headed (h ++ [Turn r c]) = true.
Proof.
  destruct h as [|t rest]; [done|]. simpl.
  intros [Ht Hrest]%andb_prop Hr. rewrite Ht. simpl.
  rewrite forallb_app, Hrest. simpl. unfold is_system. simpl. by rewrite Hr.
Qed.

Lemma persona_headed_inv h :
  persona_headed h = true →
  ∃ rest, h = system_turn :: rest ∧ Forall (λ t, role t ≠ "system") rest.
Proof.
  destruct h as [|t rest]; [done|]. simpl.
  intros [Ht Hrest]%andb_prop. apply bool_decide_eq_true in Ht. subst t.
  exists rest. split; [done|].
  apply Forall_forall. intros t Hin Hrole.
  rewrite forallb_forall in Hrest. apply list_elem_of_In in Hin.
  specialize (Hrest t Hin). unfold is_system in Hrest.
  rewrite Hrole in Hrest. discriminate.
Qed.

End Histories.

Section Strip.

Lemma lstrip_spec s :
  ∃ pre, s = pre +:+ lstrip s ∧ all_space pre = true ∧ starts_clean (lstrip s) = true.
Proof.
  induction s as [|c s (pre & Hs & Hpre & Hclean)]; simpl.
  - by exists EmptyString.
  - destruct (isspace c) eqn:Hc.
    + exists (String c pre). repeat split; [|simpl; by rewrite Hc|done].
      change (String c s = String c (pre +:+ lstrip s)). congruence.
    + exists EmptyString. simpl. by rewrite Hc.
Qed.

Lemma rstrip_spec s :
  ∃ post, s = rstrip s +:+ post ∧ all_space post = true ∧ ends_clean (rstrip s) = true.
Proof.
  induction s as [|c s (post & Hs & Hpost & Hclean)]; simpl.
  - by exists EmptyString.
  - destruct (rstrip s) as [|c' r] eqn:Hr.
    + change (s = post) in Hs. subst post. destruct (isspace c) eqn:Hc.
      * exists (String c s). repeat split; simpl. by rewrite Hc, Hpost.
      * exists s. repeat split; [done|]. simpl. by rewrite Hc.
    + exists post. repeat split; [|done|].
      * change (String c s = String c (String c' r +:+ post)). congruence.
      * destruct r; done.
Qed.

Lemma rstrip_starts_clean s : starts_clean s = true → starts_clean (rstrip s) = true.
Proof.
  destruct s as [|c s]; simpl; [done|].
  intros Hc. destruct (rstrip s); simpl; [|done].
  apply negb_true_iff in Hc. rewrite Hc. simpl. by rewrite Hc.
Qed.

(** [strip] removes white space at both ends and nothing else. *)
Lemma strip_spec s :
  ∃ pre post,
    s = pre +:+ strip s +:+ post
    ∧ all_space pre = true ∧ all_space post = true
    ∧ starts_clean (strip s) = true ∧ ends_clean (strip s) = true.
Proof.
  destruct (lstrip_spec s) as (pre & Hs & Hpre & Hstart).
  destruct (rstrip_spec (lstrip s)) as (post & Hl & Hpost & Hend).
  exists pre, post. unfold strip. rewrite <- Hl.
  repeat split; auto using rstrip_starts_clean.
Qed.

End Strip.

Section Consistency.

Lemma boot_consistent : consistent boot.
Proof. split; simpl; intros; simplify_map_eq; done. Qed.

Lemma end_session_consistent p client_id :
  consistent p →
  consistent (Process (end_session (manager p) client_id) (next_chat p)).
Proof.
  intros [Hh Hk Hc Hg Ha Hd]. split; simpl.
  - intros id h ?. destruct (decide (client_id = id)); simplify_map_eq; eauto.
  - intros id ?. destruct (decide (client_id = id)); simplify_map_eq; eauto.
  - intros id ?. destruct (decide (client_id = id)); simplify_map_eq; eauto.
  - intros id ?. destruct (decide (client_id = id)); simplify_map_eq; eauto.
  - intros id chat ?. destruct (decide (client_id = id)); simplify_map_eq; eauto.
  - intros id1 id2 chat ? ?.
    destruct (decide (client_id = id1)), (decide (client_id = id2));
      simplify_map_eq; eauto.
Qed.

Lemma fresh_chat_unused p id :
  consistent p → gemini_chats (manager p) !! id ≠ Some (fresh_chat p).
Proof.
  intros Hp Hid. apply (chats_allocated p Hp) in Hid. simpl in Hid. lia.
Qed.

(** Case analysis on whether the keys in sight are the one written to. *)
Ltac split_keys k :=
  repeat match goal with
  | id : string |- _ =>
      lazymatch goal with
      | _ : k = id |- _ => fail
      | _ : k ≠ id |- _ => fail
      | _ => destruct (decide (k = id))
      end
  end.

Ltac consistent_tac k Hp :=
  pose proof (fresh_chat_unused _ k Hp);
  destruct Hp as [Hh Hk Hc Hg Ha Hd]; split; simpl; intros;
  split_keys k; simplify_map_eq;
  eauto using persona_headed_single;
  try match goal with
  | H : gemini_chats _ !! _ = Some _ |- _ < _ => apply Ha in H; simpl in *; lia
  | |- _ < _ => simpl; lia
  | H : gemini_chats _ !! _ = Some (fresh_chat _) |- _ =>
      exfalso; apply Ha in H; simpl in H; lia
  end.

Lemma create_session_consistent p w model :
  consistent p →
  consistent (commit p (create_session (manager p) w (fresh_chat p) model)).
Proof.
  intros Hp. unfold create_session, commit.
  destruct model; [|destruct (send_message w _ _)]; simpl.
  - consistent_tac (uuid4 w) Hp.
  - consistent_tac (uuid4 w) Hp.
  - consistent_tac (uuid4 w) Hp.
Qed.

Lemma consistent_later m n n' :
  (n ≤ n')%nat → consistent (Process m n) → consistent (Process m n').
Proof.
  intros Hn [Hh Hk Hc Hg Ha Hd]. split; simpl in *; eauto.
  intros id chat Hid. apply Ha in Hid. lia.
Qed.

Lemma consistent_same p : consistent p → consistent (Process (manager p) (next_chat p + 0)).
Proof. destruct p as [m n]. apply consistent_later. simpl. lia. Qed.

Lemma switch_model_consistent p w client_id new_model :
  consistent p →
  consistent (commit p (switch_model (manager p) w (fresh_chat p) client_id new_model)).
Proof.
  intros Hp. unfold switch_model, commit.
  destruct (client_models (manager p) !! client_id) as [old|] eqn:Hold;
    [|by apply consistent_same].
  destruct new_model; [|destruct (send_message w _ _)]; simpl.
  - consistent_tac client_id Hp.
  - consistent_tac client_id Hp.
  - consistent_tac client_id Hp.
Qed.

Lemma add_message_consistent m n client_id r c :
  String.eqb r "system" = false →
  consistent (Process m n) →
  consistent (Process (add_message m client_id r c) n).
Proof.
  intros Hr Hp. unfold add_message.
  destruct (chat_histories m !! client_id) as [h|] eqn:Hh0; [|done].
  destruct Hp as [Hh Hk Hc Hg Ha Hd]; split; simpl in *; eauto.
  - intros id h' Hid. destruct (decide (client_id = id)); simplify_map_eq; eauto.
    apply persona_headed_snoc; eauto.
  - intros id Hid. destruct (decide (client_id = id)); simplify_map_eq; eauto.
    apply Hk in Hid. congruence.
  - intros id Hid. destruct (decide (client_id = id)); simplify_map_eq; eauto.
Qed.

(** Appending to the list [get_history] returned is [add_message] with
    the role [user]. *)
Lemma user_turn_in_place self client_id message :
  match chat_histories self !! client_id with
  | Some _ =>
      with_chat_histories
        (<[client_id := get_history self client_id ++ [Turn "user" message]]>) self
  | None => self
  end = add_message self client_id "user" message.
Proof.
  unfold add_message, get_history.
  by destruct (chat_histories self !! client_id).
Qed.

Lemma get_ai_response_after self w client_id message :
  let o := get_ai_response self w client_id message in
  allocated (calls o) = 0 ∧
  (after o = self
   ∨ after o = add_message self client_id "user" message
   ∨ ∃ r, after o = add_message (add_message self client_id "user" message)
                                client_id "assistant" r).
Proof.
  unfold get_ai_response, get_ai_response_try.
  destruct (default GPT4 (client_models self !! client_id)).
  - rewrite user_turn_in_place.
    destruct (completions_create w _) as [[[|[c|] rest]]|]; simpl; eauto.
  - destruct (gemini_chats self !! client_id) as [chat|]; simpl; [|eauto].
    destruct (send_message w chat message) as [[[t|]]|]; simpl; eauto.
Qed.

Lemma get_ai_response_consistent p w client_id message :
  consistent p →
  consistent (commit p (get_ai_response (manager p) w client_id message)).
Proof.
  intros Hp. unfold commit.
  destruct (get_ai_response_after (manager p) w client_id message)
    as [-> [-> | [-> | [r ->]]]].
  - by apply consistent_same.
  - apply add_message_consistent; [done|]. by apply consistent_same.
  - do 2 (apply add_message_consistent; [done|]). by apply consistent_same.
Qed.

Lemma exec_consistent p c w : consistent p → consistent (exec p c w).
Proof.
  destruct c; simpl;
    auto using create_session_consistent, get_ai_response_consistent,
               switch_model_consistent, end_session_consistent.
Qed.

Lemma run_from_consistent trace p : consistent p → consistent (run_from p trace).
Proof.
  revert p. induction trace as [|[c w] trace IH]; simpl; intros p Hp; [done|].
  apply IH. by apply exec_consistent.
Qed.

Lemma run_consistent trace : consistent (run trace).
Proof. apply run_from_consistent, boot_consistent. Qed.

End Consistency.

(** ** Sending a message *)

Section SendMessage.

(** A client the manager has never recorded has no state of any kind. *)
Lemma unknown_client_stateless trace client_id :
  client_models (manager (run trace)) !! client_id = None →
  chat_histories (manager (run trace)) !! client_id = None
  ∧ gemini_chats (manager (run trace)) !! client_id = None.
Proof.
  intros Hid. pose proof (run_consistent trace) as Hp.
  split; [by apply (histories_known _ Hp) | by apply (chats_known _ Hp)].
Qed.

(** What [get_ai_response] does for a client id without a recorded model
    and without a history. *)
Lemma get_ai_response_default self w client_id message :
  client_models self !! client_id = None →
  chat_histories self !! client_id = None →
  get_ai_response self w client_id message =
    Outcome self [CompletionsCreate [system_turn; Turn "user" message]]
      match completions_create w [system_turn; Turn "user" message] with
      | Some (Completion (Some c :: _)) => Return (strip c, GPT4)
      | _ => Raise (HTTPException 500 "Internal Server Error")
      end.
Proof.
  intros Hm Hh. unfold get_ai_response, get_ai_response_try, get_history, add_message.
  rewrite Hm, Hh. simpl.
  destruct (completions_create w _) as [[[|[c|] rest]]|]; simpl; try done.
  by rewrite Hh.
Qed.

End SendMessage.

(** C10: for a client id that [client_models] does not hold,
    [get_ai_response] leaves the manager, hence its three dictionaries, as
    it found them: the model defaults to GPT-4, the history sent to the
    provider is a new one-turn list with the user turn appended, which is
    not stored, and [add_message] does nothing for that id. *)
Theorem unknown_client_send_is_frame trace w client_id message :
  client_models (manager (run trace)) !! client_id = None →
  let self := manager (run trace) in
  let o := get_ai_response self w client_id message in
  after o = self
  ∧ chat_histories (after o) = chat_histories self
  ∧ gemini_chats (after o) = gemini_chats self
  ∧ client_models (after o) = client_models self
  ∧ default GPT4 (client_models self !! client_id) = GPT4
  ∧ get_history self client_id = [system_turn]
  ∧ calls o = [CompletionsCreate [system_turn; Turn "user" message]]
  ∧ ∀ r c, add_message self client_id r c = self.
Proof.
  intros Hid self o.
  destruct (unknown_client_stateless trace client_id Hid) as [Hh Hc].
  subst o. rewrite (get_ai_response_default self w client_id message Hid Hh).
  subst self. simpl. unfold get_history, add_message. rewrite Hid, Hh.
  repeat split; done.
Qed.

Lemma unknown_client_send_is_frame_witness :
  let self := manager (run [(CreateSession GPT4, answering "a")]) in
  let o := get_ai_response self (answering "") "b" "hello" in
  client_models self !! "b" = None
  ∧ after o = self
  ∧ calls o = [CompletionsCreate [system_turn; Turn "user" "hello"]].
Proof.
  assert (client_models (manager (run [(CreateSession GPT4, answering "a")])) !! "b"
          = None) as Hid by (vm_compute; reflexivity).
  destruct (unknown_client_send_is_frame
              [(CreateSession GPT4, answering "a")] (answering "") "b" "hello" Hid)
    as (H1 & _ & _ & _ & _ & _ & H2 & _).
  split; [exact Hid | split; [exact H1 | exact H2]].
Defined.

(** C1, as the code has it: a message for a client id that the store does
    not hold is never refused with a 400.  It is sent to GPT-4 with a new
    one-turn history; the client gets the provider's answer when the call
    returns one and a 500 when it does not. *)
Theorem unknown_client_is_served trace w client_id message :
  client_models (manager (run trace)) !! client_id = None →
  let s := App.get_message (run trace) w client_id message in
  made s = [CompletionsCreate [system_turn; Turn "user" (strip message)]]
  ∧ reply s =
      match completions_create w [system_turn; Turn "user" (strip message)] with
      | Some (Completion (Some c :: _)) => Ok (AIResponse (strip c) GPT4)
      | _ => Error 500 "Internal Server Error"
      end
  ∧ ∀ detail, reply s ≠ Error 400 detail.
Proof.
  intros Hid s.
  destruct (unknown_client_stateless trace client_id Hid) as [Hh _].
  subst s. unfold App.get_message.
  rewrite (get_ai_response_default _ w client_id (strip message) Hid Hh). simpl.
  destruct (completions_create w _) as [[[|[c|] rest]]|]; simpl; repeat split; done.
Qed.

Lemma unknown_client_is_served_witness :
  client_models (manager (run [])) !! "nobody" = None
  ∧ reply (App.get_message (run []) (failing "") "nobody" "hello")
    = Error 500 "Internal Server Error".
Proof.
  assert (client_models (manager (run [])) !! "nobody" = None) as Hid
    by (vm_compute; reflexivity).
  destruct (unknown_client_is_served [] (failing "") "nobody" "hello" Hid)
    as (_ & H & _).
  split; [exact Hid | exact H].
Defined.

(** C1, counterexample: nothing is stored under "nobody", the message is
    answered all the same. *)
Lemma unknown_client_gets_an_answer :
  client_models (manager boot) !! "nobody" = None
  ∧ reply (App.get_message boot (answering "") "nobody" " hello ")
    = Ok (AIResponse "I hear you." GPT4).
Proof. split; vm_compute; reflexivity. Qed.

(** C2, as the code has it: when [get_ai_response] fails for a recorded
    client, the failure is the uniform 500, no assistant turn is stored and
    the Gemini handles and the recorded models are untouched; a GPT-4
    client with a history has had the user turn appended to it by then,
    every other history is as before. *)
Theorem failed_send_effect self w client_id message model e :
  client_models self !! client_id = Some model →
  value (get_ai_response self w client_id message) = Raise e →
  let o := get_ai_response self w client_id message in
  e = HTTPException 500 "Internal Server Error"
  ∧ gemini_chats (after o) = gemini_chats self
  ∧ client_models (after o) = client_models self
  ∧ chat_histories (after o) =
      match model, chat_histories self !! client_id with
      | GPT4, Some h => <[client_id := h ++ [Turn "user" message]]> (chat_histories self)
      | _, _ => chat_histories self
      end.
Proof.
  unfold get_ai_response, get_ai_response_try, get_history. intros ->. simpl.
  destruct model.
  - destruct (chat_histories self !! client_id) as [h|] eqn:Hh; simpl;
      destruct (completions_create w _) as [[[|[c|] rest]]|]; simpl;
      intros [= <-]; repeat split; done.
  - destruct (gemini_chats self !! client_id) as [chat|]; simpl.
    + destruct (send_message w chat message) as [[[t|]]|]; simpl;
        intros [= <-]; repeat split; done.
    + intros [= <-]; repeat split; done.
Qed.

Lemma failed_send_effect_witness :
  let self := manager (run [(CreateSession GEMINI, answering "g")]) in
  let o := get_ai_response self (failing "") "g" "hello" in
  client_models self !! "g" = Some GEMINI
  ∧ value o = Raise (HTTPException 500 "Internal Server Error")
  ∧ chat_histories (after o) = chat_histories self
  ∧ gemini_chats (after o) = gemini_chats self.
Proof.
  set (self := manager (run [(CreateSession GEMINI, answering "g")])).
  assert (client_models self !! "g" = Some GEMINI) as Hm by (vm_compute; reflexivity).
  assert (value (get_ai_response self (failing "") "g" "hello")
          = Raise (HTTPException 500 "Internal Server Error")) as Hv
    by (vm_compute; reflexivity).
  destruct (failed_send_effect self (failing "") "g" "hello" GEMINI _ Hm Hv)
    as (_ & Hg & _ & Hh).
  split; [exact Hm | split; [exact Hv | split; [exact Hh | exact Hg]]].
Defined.

(** C2, counterexample: the provider call of a GPT-4 session fails and the
    stored history has grown by the user turn. *)
Lemma failed_send_keeps_user_turn :
  let p := run [(CreateSession GPT4, answering "a")] in
  let s := App.get_message p (failing "") "a" "hello" in
  client_models (manager p) !! "a" = Some GPT4
  ∧ chat_histories (manager p) !! "a" = Some [system_turn]
  ∧ reply s = Error 500 "Internal Server Error"
  ∧ chat_histories (manager (proc s)) !! "a" = Some [system_turn; Turn "user" "hello"].
Proof. repeat split; vm_compute; reflexivity. Qed.

(** C3: after any sequence of [create_session], [get_ai_response],
    [switch_model] and [end_session] calls, every stored history starts with
    the persona turn (role [system], content [SYSTEM_PROMPT]) and has no
    other turn of role [system]. *)
Theorem stored_history_persona_first trace client_id h :
  chat_histories (manager (run trace)) !! client_id = Some h →
  ∃ rest, h = Turn "system" SYSTEM_PROMPT :: rest
          ∧ Forall (λ t, role t ≠ "system") rest.
Proof.
  intros Hh. apply persona_headed_inv.
  by apply (histories_headed _ (run_consistent trace) client_id).
Qed.

Lemma stored_history_persona_first_witness :
  let trace := [(CreateSession GPT4, answering "a");
                (GetAIResponse "a" "I feel anxious", answering "");
                (SwitchModel "a" GEMINI, answering "");
                (SwitchModel "a" GPT4, answering "");
                (GetAIResponse "a" "hello", answering "")] in
  let h := [system_turn; Turn "user" "hello"; Turn "assistant" "I hear you."] in
  chat_histories (manager (run trace)) !! "a" = Some h
  ∧ ∃ rest, h = Turn "system" SYSTEM_PROMPT :: rest
            ∧ Forall (λ t, role t ≠ "system") rest.
Proof.
  intros trace h.
  assert (chat_histories (manager (run trace)) !! "a" = Some h) as Hh
    by (vm_compute; reflexivity).
  split; [exact Hh | exact (stored_history_persona_first trace "a" h Hh)].
Defined.

(** ** Switching the provider *)

(** The switch to GPT-4 has no provider call in it: for a recorded client it
    always returns, leaves the history at the single persona turn and drops
    the Gemini chat, whatever model was recorded before. *)
Lemma switch_model_to_gpt4 self w chat client_id old :
  client_models self !! client_id = Some old →
  let o := switch_model self w chat client_id GPT4 in
  value o = Return GPT4
  ∧ client_models (after o) !! client_id = Some GPT4
  ∧ chat_histories (after o) !! client_id = Some [system_turn]
  ∧ gemini_chats (after o) !! client_id = None.
Proof.
  intros Hold. unfold switch_model. rewrite Hold. simpl. by simplify_map_eq.
Qed.

(** C4, at the failing inputs: the new Gemini chat does not take the
    persona prompt, so that [switch_model] leaves through the exception
    after it has recorded the new model and before it stores the new chat
    and pops the history.  A GPT-4 client that switches to Gemini keeps its
    whole history; a Gemini client that switches to Gemini keeps its chat,
    and its next message goes to that chat. *)
Theorem failed_switch_keeps_old_state :
  let p := run [(CreateSession GPT4, answering "a");
                (GetAIResponse "a" "I feel anxious", answering "")] in
  let s := App.switch_model p (failing "") "a" GEMINI in
  let q := run [(CreateSession GEMINI, answering "g")] in
  let t := App.switch_model q (failing "") "g" GEMINI in
  (client_models (manager p) !! "a" = Some GPT4
   ∧ reply s = Error 500 "Internal Server Error"
   ∧ client_models (manager (proc s)) !! "a" = Some GEMINI
   ∧ chat_histories (manager (proc s)) !! "a"
     = Some [system_turn; Turn "user" "I feel anxious"; Turn "assistant" "I hear you."]
   ∧ chat_histories (manager (proc s)) !! "a" = chat_histories (manager p) !! "a")
  ∧ (gemini_chats (manager q) !! "g" = Some (ChatRef 0)
     ∧ reply t = Error 500 "Internal Server Error"
     ∧ gemini_chats (manager (proc t)) !! "g" = Some (ChatRef 0)
     ∧ made (App.get_message (proc t) (answering "") "g" "hello")
       = [SendMessage (ChatRef 0) "hello"]).
Proof. repeat split; vm_compute; reflexivity. Qed.

(** C6: after a [switch_model] that returned, the next message of that
    client goes to the new provider and to nothing else: GPT-4 is called
    with the persona turn and the user turn, Gemini is sent the message on
    the chat the switch has just constructed, and a reply names the new
    model.  The history the client had is gone or back to the persona turn,
    and the Gemini handle it had is stored under no client id. *)
Theorem switch_model_then_send trace w client_id new_model w' message :
  let p := run trace in
  let o := switch_model (manager p) w (fresh_chat p) client_id new_model in
  value o = Return new_model →
  let p' := commit p o in
  let o' := get_ai_response (manager p') w' client_id message in
  is_Some (client_models (manager p) !! client_id)
  ∧ calls o' =
      match new_model with
      | GPT4 => [CompletionsCreate [system_turn; Turn "user" message]]
      | GEMINI => [SendMessage (fresh_chat p) message]
      end
  ∧ (∀ r m, value o' = Return (r, m) → m = new_model)
  ∧ match new_model with
    | GPT4 =>
        chat_histories (manager p') !! client_id = Some [system_turn]
        ∧ gemini_chats (manager p') !! client_id = None
    | GEMINI =>
        chat_histories (manager p') !! client_id = None
        ∧ gemini_chats (manager p') !! client_id = Some (fresh_chat p)
    end
  ∧ ∀ old id, gemini_chats (manager p) !! client_id = Some old →
              gemini_chats (manager p') !! id ≠ Some old.
Proof.
  intros p o Hv p' o'. pose proof (run_consistent trace) as Hp. fold p in Hp.
  subst o' p' o. revert Hv. unfold switch_model.
  destruct (client_models (manager p) !! client_id) as [m0|] eqn:Hm0; [|done].
  intros Hv. split; [by eexists|].
  revert Hv. destruct new_model; simpl.
  - intros _. unfold get_ai_response, get_ai_response_try, get_history, add_message.
    simpl. simplify_map_eq.
    repeat split.
    + destruct (completions_create w' _) as [[[|[c|] rest]]|]; simpl; done.
    + destruct (completions_create w' _) as [[[|[c|] rest]]|]; simpl;
        intros r m; simplify_map_eq; congruence.
    + intros old id Hold Hid. destruct (decide (client_id = id)); simplify_map_eq.
      by apply n, (chats_distinct _ Hp client_id id old).
  - destruct (send_message w (fresh_chat p) SYSTEM_PROMPT) as [resp|] eqn:Hs; [|done].
    simpl. intros _.
    unfold get_ai_response, get_ai_response_try. simpl. simplify_map_eq.
    repeat split.
    + destruct (send_message w' _ message) as [[[t|]]|]; simpl; done.
    + destruct (send_message w' _ message) as [[[t|]]|]; simpl;
        intros r m; congruence.
    + intros old id Hold Hid. destruct (decide (client_id = id)); simplify_map_eq.
      * by apply (fresh_chat_unused p id Hp).
      * by apply n, (chats_distinct _ Hp client_id id old).
Qed.

Lemma switch_model_then_send_witness :
  let p := run [(CreateSession GEMINI, answering "g")] in
  let o := switch_model (manager p) (answering "") (fresh_chat p) "g" GEMINI in
  let o' := get_ai_response (manager (commit p o)) (answering "") "g" "hello" in
  value o = Return GEMINI
  ∧ gemini_chats (manager p) !! "g" = Some (ChatRef 0)
  ∧ calls o' = [SendMessage (ChatRef 1) "hello"]
  ∧ ∀ id, gemini_chats (manager (commit p o)) !! id ≠ Some (ChatRef 0).
Proof.
  intros p o o'.
  assert (value o = Return GEMINI) as Hv by (vm_compute; reflexivity).
  assert (gemini_chats (manager p) !! "g" = Some (ChatRef 0)) as Hg
    by (vm_compute; reflexivity).
  destruct (switch_model_then_send [(CreateSession GEMINI, answering "g")]
              (answering "") "g" GEMINI (answering "") "hello" Hv)
    as (_ & Hc & _ & _ & Hold).
  split; [exact Hv | split; [exact Hg | split; [exact Hc |]]].
  intros id. exact (Hold (ChatRef 0) id Hg).
Defined.

(** ** Creating a session *)

(** C5, as the code has it: [create_session] takes the value of
    [uuid.uuid4()] as the client id without looking it up, records the
    requested model under it and leaves every other client alone.  For
    GPT-4 it stores the one-turn history; for Gemini it stores no history:
    it constructs a chat, sends it the persona prompt and, when that call
    returns, stores the chat as the client's handle. *)
Theorem create_session_effect self w chat model :
  let o := create_session self w chat model in
  client_models (after o) !! uuid4 w = Some model
  ∧ match model with
    | GPT4 =>
        value o = Return (uuid4 w, GPT4)
        ∧ calls o = []
        ∧ chat_histories (after o) !! uuid4 w = Some [system_turn]
        ∧ gemini_chats (after o) = gemini_chats self
    | GEMINI =>
        calls o = [StartChat chat; SendMessage chat SYSTEM_PROMPT]
        ∧ chat_histories (after o) = chat_histories self
        ∧ (is_Some (send_message w chat SYSTEM_PROMPT) →
           value o = Return (uuid4 w, GEMINI)
           ∧ gemini_chats (after o) !! uuid4 w = Some chat)
    end
  ∧ ∀ id, id ≠ uuid4 w →
      client_models (after o) !! id = client_models self !! id
      ∧ chat_histories (after o) !! id = chat_histories self !! id
      ∧ gemini_chats (after o) !! id = gemini_chats self !! id.
Proof.
  unfold create_session. destruct model; simpl.
  - simplify_map_eq. repeat split; try done; by simplify_map_eq.
  - destruct (send_message w chat SYSTEM_PROMPT) as [r|]; simpl;
      simplify_map_eq; repeat split; try done; by simplify_map_eq.
Qed.

Lemma create_session_effect_witness :
  let o := create_session init (answering "g") (ChatRef 0) GEMINI in
  value o = Return ("g", GEMINI)
  ∧ gemini_chats (after o) !! "g" = Some (ChatRef 0)
  ∧ chat_histories (after o) = ∅.
Proof.
  intros o.
  destruct (create_session_effect init (answering "g") (ChatRef 0) GEMINI)
    as (_ & (_ & Hh & Hs) & _).
  destruct Hs as [Hv Hg]; [by eexists|].
  split; [exact Hv | split; [exact Hg | exact Hh]].
Defined.

(** C5, counterexample: a Gemini session is created and no history is
    stored for it. *)
Lemma gemini_session_has_no_history :
  let o := create_session init (answering "g") (ChatRef 0) GEMINI in
  value o = Return ("g", GEMINI)
  ∧ chat_histories (after o) !! "g" = None
  ∧ chat_histories (after o) !! "g" ≠ Some [system_turn].
Proof. repeat split; vm_compute; [reflexivity..|discriminate]. Qed.

(** ** A successful exchange with GPT-4 *)

(** The GPT-4 branch from any manager in which the client has a history:
    the provider is called with the history and the user turn, and a reply
    means that both turns are stored. *)
Lemma gpt4_branch_effect p w client_id message h :
  client_models (manager p) !! client_id = Some GPT4 →
  chat_histories (manager p) !! client_id = Some h →
  let s := App.get_message p w client_id message in
  made s = [CompletionsCreate (h ++ [Turn "user" (strip message)])]
  ∧ gemini_chats (manager (proc s)) = gemini_chats (manager p)
  ∧ client_models (manager (proc s)) = client_models (manager p)
  ∧ ∀ response model,
      reply s = Ok (AIResponse response model) →
      model = GPT4
      ∧ chat_histories (manager (proc s)) =
          <[client_id := h ++ [Turn "user" (strip message); Turn "assistant" response]]>
            (chat_histories (manager p)).
Proof.
  intros Hm Hh. unfold App.get_message.
  unfold get_ai_response, get_ai_response_try, get_history, add_message.
  rewrite Hm, Hh. simpl.
  destruct (completions_create w _) as [[[|[c|] rest]]|]; simpl;
    rewrite ?lookup_insert_eq; simpl;
    (split; [done|]); (split; [done|]); (split; [done|]); try done.
  intros response model [= <- <-].
  by rewrite insert_insert_eq, <- app_assoc.
Qed.

(** C7: a message for a client recorded as a GPT-4 client goes to the
    provider once, as the user turn after the client's stored history, with
    the text as [strip] leaves it, that is without the white space at its
    two ends and otherwise as received, whatever is left of it.  When
    [POST /message] then succeeds, the stored history has grown by that user
    turn followed by the assistant turn, and nothing else in the store has
    changed. *)
Theorem gpt4_exchange_appends_two_turns trace w client_id message :
  let p := run trace in
  let s := App.get_message p w client_id message in
  client_models (manager p) !! client_id = Some GPT4 →
  (∃ h,
     chat_histories (manager p) !! client_id = Some h
     ∧ made s = [CompletionsCreate (h ++ [Turn "user" (strip message)])]
     ∧ ∀ response model,
         reply s = Ok (AIResponse response model) →
         model = GPT4
         ∧ chat_histories (manager (proc s)) =
             <[client_id := h ++ [Turn "user" (strip message);
                                  Turn "assistant" response]]>
               (chat_histories (manager p)))
  ∧ gemini_chats (manager (proc s)) = gemini_chats (manager p)
  ∧ client_models (manager (proc s)) = client_models (manager p)
  ∧ ∃ pre post,
      message = pre +:+ strip message +:+ post
      ∧ all_space pre = true ∧ all_space post = true
      ∧ starts_clean (strip message) = true ∧ ends_clean (strip message) = true.
Proof.
  intros p s Hm.
  destruct (histories_kept _ (run_consistent trace) client_id Hm) as [h Hh].
  destruct (gpt4_branch_effect p w client_id message h Hm Hh) as (Hmade & Hg & Hc & Hok).
  split; [by exists h|].
  split; [done|]. split; [done|]. apply strip_spec.
Qed.

Lemma gpt4_exchange_appends_two_turns_witness :
  let p := run [(CreateSession GPT4, answering "a")] in
  let s := App.get_message p (answering "") "a" "  I feel anxious " in
  client_models (manager p) !! "a" = Some GPT4
  ∧ reply s = Ok (AIResponse "I hear you." GPT4)
  ∧ chat_histories (manager (proc s)) !! "a"
    = Some [system_turn; Turn "user" "I feel anxious"; Turn "assistant" "I hear you."].
Proof.
  intros p s.
  assert (client_models (manager p) !! "a" = Some GPT4) as Hm
    by (vm_compute; reflexivity).
  assert (reply s = Ok (AIResponse "I hear you." GPT4)) as Hr
    by (vm_compute; reflexivity).
  destruct (gpt4_exchange_appends_two_turns [(CreateSession GPT4, answering "a")]
              (answering "") "a" "  I feel anxious " Hm)
    as ((h & Hh & _ & Hok) & _).
  destruct (Hok _ _ Hr) as [_ Hhist].
  split; [exact Hm | split; [exact Hr |]].
  assert (chat_histories (manager p) !! "a" = Some [system_turn]) as Hh'
    by (vm_compute; reflexivity).
  fold p in Hh. rewrite Hh' in Hh. injection Hh as <-.
  fold p s in Hhist. rewrite Hhist, lookup_insert_eq.
  vm_compute. reflexivity.
Defined.

(** A message of white space only is sent on as the empty text. *)
Example blank_message_is_forwarded :
  made (App.get_message (run [(CreateSession GPT4, answering "a")])
                        (answering "") "a" "   ")
  = [CompletionsCreate [system_turn; Turn "user" ""]].
Proof. vm_compute. reflexivity. Qed.

(** ** Ending a session *)

(** C8: [DELETE /end/{client_id}] answers "Conversation ended" for any
    client id, recorded or not, and leaves nothing stored under it; a second
    call answers the same and changes nothing. *)
Theorem end_session_idempotent p client_id :
  let s1 := App.end_conversation p client_id in
  let s2 := App.end_conversation (proc s1) client_id in
  reply s1 = Ok (Detail "Conversation ended")
  ∧ reply s2 = Ok (Detail "Conversation ended")
  ∧ chat_histories (manager (proc s1)) !! client_id = None
  ∧ gemini_chats (manager (proc s1)) !! client_id = None
  ∧ client_models (manager (proc s1)) !! client_id = None
  ∧ proc s2 = proc s1
  ∧ end_session (end_session (manager p) client_id) client_id
    = end_session (manager p) client_id.
Proof.
  simpl. unfold end_session, with_client_models, with_gemini_chats, with_chat_histories.
  simpl. rewrite !lookup_delete_eq, !delete_delete_eq. repeat split; done.
Qed.

(** ** The store after a failed switch *)

(** C9, at the failing input: a GPT-4 session is created and a switch to
    Gemini fails because the new chat does not take the persona prompt.  The
    client is then recorded as a Gemini client while its only state is a
    GPT-4 history, and its next message is answered with a 500 without any
    provider being called. *)
Theorem failed_switch_leaves_model_apart :
  let p := run [(CreateSession GPT4, answering "a");
                (SwitchModel "a" GEMINI, failing "")] in
  let s := App.get_message p (answering "") "a" "hello" in
  reply (App.switch_model (run [(CreateSession GPT4, answering "a")])
                          (failing "") "a" GEMINI)
    = Error 500 "Internal Server Error"
  ∧ client_models (manager p) !! "a" = Some GEMINI
  ∧ chat_histories (manager p) !! "a" = Some [system_turn]
  ∧ gemini_chats (manager p) !! "a" = None
  ∧ made s = []
  ∧ reply s = Error 500 "Internal Server Error".
Proof. repeat split; vm_compute; reflexivity. Qed.

(** * Further properties of the manager and of the endpoints *)

(** ** What the endpoints answer *)

Section Replies.

Lemma lstrip_clean s : starts_clean s = true → lstrip s = s.
Proof.
  destruct s as [|c s]; simpl; [done|].
  intros Hc. apply negb_true_iff in Hc. by rewrite Hc.
Qed.

Lemma rstrip_clean s : ends_clean s = true → rstrip s = s.
Proof.
  induction s as [|c s IH]; [done|].
  destruct s as [|c' s].
  - simpl. intros Hc. apply negb_true_iff in Hc. by rewrite Hc.
  - intros Hs. change (ends_clean (String c' s) = true) in Hs.
    change (rstrip (String c (String c' s)))
      with (match rstrip (String c' s) with
            | EmptyString => if isspace c then EmptyString else String c EmptyString
            | r => String c r
            end).
    by rewrite (IH Hs).
Qed.

Lemma strip_clean s :
  starts_clean s = true → ends_clean s = true → strip s = s.
Proof.
  intros Hs He. unfold strip. rewrite (lstrip_clean s Hs). by apply rstrip_clean.
Qed.

Lemma strip_idempotent s : strip (strip s) = strip s.
Proof.
  destruct (strip_spec s) as (pre & post & _ & _ & _ & Hs & He).
  by apply strip_clean.
Qed.

End Replies.

(** X1: [POST /switch-model] answers 400 exactly when the client id is not
    recorded; it then says "Invalid client_id", calls no provider and
    leaves the manager as it was. *)
Theorem switch_refused_iff_unknown p w client_id model :
  let s := App.switch_model p w client_id model in
  ((∃ detail, reply s = Error 400 detail)
   ↔ client_models (manager p) !! client_id = None)
  ∧ (client_models (manager p) !! client_id = None →
     reply s = Error 400 "Invalid client_id"
     ∧ made s = []
     ∧ manager (proc s) = manager p
     ∧ next_chat (proc s) = next_chat p).
Proof.
  unfold App.switch_model, switch_model, commit.
  destruct (client_models (manager p) !! client_id) as [old|] eqn:Hold; simpl.
  - split; [|done]. split; [|done]. intros [detail Hd]. revert Hd.
    destruct model; simpl; [done|].
    destruct (send_message w _ _); simpl; done.
  - split; [split; [done|by eexists]|]. intros _. repeat split. lia.
Qed.

Lemma switch_refused_iff_unknown_witness :
  client_models (manager boot) !! "nobody" = None
  ∧ reply (App.switch_model boot (answering "") "nobody" GEMINI)
    = Error 400 "Invalid client_id".
Proof.
  assert (client_models (manager boot) !! "nobody" = None) as Hid
    by (vm_compute; reflexivity).
  destruct (switch_refused_iff_unknown boot (answering "") "nobody" GEMINI)
    as [_ H].
  destruct (H Hid) as [Hr _].
  split; [exact Hid | exact Hr].
Defined.

(** X2: [POST /message] answers either with a text and the model recorded
    for the client (GPT-4 when none is recorded) or with the 500 "Internal
    Server Error", and with nothing else: no 400 leaves it.  It calls a
    provider at most once and constructs no chat. *)
Theorem get_message_replies p w client_id message :
  let s := App.get_message p w client_id message in
  ((∃ response,
      reply s = Ok (AIResponse response
                      (default GPT4 (client_models (manager p) !! client_id))))
   ∨ reply s = Error 500 "Internal Server Error")
  ∧ (length (made s) ≤ 1)%nat
  ∧ next_chat (proc s) = next_chat p.
Proof.
  unfold App.get_message, get_ai_response, get_ai_response_try, commit.
  destruct (default GPT4 (client_models (manager p) !! client_id)); simpl.
  - destruct (completions_create w _) as [[[|[c|] rest]]|]; simpl;
      (split; [eauto|]); split; simpl; lia.
  - destruct (gemini_chats (manager p) !! client_id) as [chat|]; simpl.
    + destruct (send_message w chat _) as [[[t|]]|]; simpl;
        (split; [eauto|]); split; simpl; lia.
    + (split; [eauto|]); split; simpl; lia.
Qed.

(** X3: a text that [POST /message] returns from GPT-4 has no white space at
    either end: [strip] would leave it as it is. *)
Theorem gpt4_reply_is_stripped p w client_id message response :
  reply (App.get_message p w client_id message) = Ok (AIResponse response GPT4) →
  starts_clean response = true
  ∧ ends_clean response = true
  ∧ strip response = response.
Proof.
  unfold App.get_message, get_ai_response, get_ai_response_try.
  destruct (default GPT4 (client_models (manager p) !! client_id)); simpl.
  - destruct (completions_create w _) as [[[|[c|] rest]]|]; simpl; try done.
    intros [= <-].
    destruct (strip_spec c) as (pre & post & _ & _ & _ & Hs & He).
    auto using strip_idempotent.
  - destruct (gemini_chats (manager p) !! client_id) as [chat|]; simpl; [|done].
    destruct (send_message w chat _) as [[[t|]]|]; simpl; done.
Qed.

Lemma gpt4_reply_is_stripped_witness :
  reply (App.get_message boot (answering "") "nobody" "hello")
    = Ok (AIResponse "I hear you." GPT4)
  ∧ strip "I hear you." = "I hear you.".
Proof.
  assert (reply (App.get_message boot (answering "") "nobody" "hello")
          = Ok (AIResponse "I hear you." GPT4)) as Hr by (vm_compute; reflexivity).
  destruct (gpt4_reply_is_stripped boot (answering "") "nobody" "hello" _ Hr)
    as (_ & _ & H).
  split; [exact Hr | exact H].
Defined.

(** X4: a message of a client recorded as a Gemini client never changes the
    manager.  With a stored chat the message goes to that chat as received
    and the reply is the response text as received; without one no provider
    is called and the 400 raised inside [get_ai_response] leaves it as the
    500. *)
Theorem gemini_send_is_frame self w client_id message :
  client_models self !! client_id = Some GEMINI →
  let o := get_ai_response self w client_id message in
  after o = self
  ∧ match gemini_chats self !! client_id with
    | Some chat =>
        calls o = [SendMessage chat message]
        ∧ value o =
            match send_message w chat message with
            | Some (Response (Some t)) => Return (t, GEMINI)
            | _ => Raise (HTTPException 500 "Internal Server Error")
            end
    | None =>
        calls o = []
        ∧ value o = Raise (HTTPException 500 "Internal Server Error")
    end.
Proof.
  intros Hm. unfold get_ai_response, get_ai_response_try. rewrite Hm. simpl.
  destruct (gemini_chats self !! client_id) as [chat|]; simpl; [|done].
  destruct (send_message w chat message) as [[[t|]]|]; simpl; done.
Qed.

Lemma gemini_send_is_frame_witness :
  let self := manager (run [(CreateSession GEMINI, answering "g")]) in
  let o := get_ai_response self (answering "") "g" " hello " in
  client_models self !! "g" = Some GEMINI
  ∧ after o = self
  ∧ calls o = [SendMessage (ChatRef 0) " hello "]
  ∧ value o = Return ("Tell me more.", GEMINI).
Proof.
  intros self o.
  assert (client_models self !! "g" = Some GEMINI) as Hm by (vm_compute; reflexivity).
  assert (gemini_chats self !! "g" = Some (ChatRef 0)) as Hg by (vm_compute; reflexivity).
  pose proof (gemini_send_is_frame self (answering "") "g" " hello " Hm) as [Ha Hc].
  rewrite Hg in Hc. destruct Hc as [Hc Hv].
  split; [exact Hm | split; [exact Ha | split; [exact Hc | exact Hv]]].
Defined.

Section Growth.

Lemma add_message_lookup self client_id r c id :
  chat_histories (add_message self client_id r c) !! id =
    match chat_histories self !! id with
    | Some h => Some (if decide (id = client_id) then h ++ [Turn r c] else h)
    | None => None
    end.
Proof.
  unfold add_message.
  destruct (chat_histories self !! client_id) as [h0|] eqn:H0; simpl.
  - destruct (decide (id = client_id)) as [->|Hne].
    + by rewrite lookup_insert_eq, H0.
    + rewrite lookup_insert_ne by done. by destruct (chat_histories self !! id).
  - destruct (decide (id = client_id)) as [->|Hne].
    + by rewrite H0.
    + by destruct (chat_histories self !! id).
Qed.

Lemma add_message_gemini_chats self client_id r c :
  gemini_chats (add_message self client_id r c) = gemini_chats self.
Proof. unfold add_message. by destruct (chat_histories self !! client_id). Qed.

Lemma add_message_client_models self client_id r c :
  client_models (add_message self client_id r c) = client_models self.
Proof. unfold add_message. by destruct (chat_histories self !! client_id). Qed.

End Growth.

(** X5: [get_ai_response] never removes or rewrites a stored turn: every
    history is afterwards the history it was, followed for the client of the
    call by at most two new turns and for every other client by none. *)
Theorem history_only_grows self w client_id message id h :
  chat_histories self !! id = Some h →
  ∃ suffix,
    chat_histories (after (get_ai_response self w client_id message)) !! id
      = Some (h ++ suffix)
    ∧ (length suffix ≤ 2)%nat
    ∧ (id ≠ client_id → suffix = []).
Proof.
  intros Hh.
  destruct (get_ai_response_after self w client_id message)
    as [_ [-> | [-> | [r ->]]]]; rewrite ?add_message_lookup, Hh.
  - exists []. rewrite app_nil_r. repeat split; simpl; first [done | lia].
  - destruct (decide (id = client_id)).
    + eexists. repeat split; simpl; first [done | lia].
    + exists []. rewrite app_nil_r. repeat split; simpl; first [done | lia].
  - destruct (decide (id = client_id)).
    + exists [Turn "user" message; Turn "assistant" r].
      rewrite <- app_assoc. repeat split; simpl; first [done | lia].
    + exists []. rewrite app_nil_r. repeat split; simpl; first [done | lia].
Qed.

Lemma history_only_grows_witness :
  let self := manager (run [(CreateSession GPT4, answering "a")]) in
  chat_histories self !! "a" = Some [system_turn]
  ∧ ∃ suffix,
      chat_histories (after (get_ai_response self (failing "") "a" "hello")) !! "a"
        = Some ([system_turn] ++ suffix)
      ∧ (length suffix ≤ 2)%nat.
Proof.
  intros self.
  assert (chat_histories self !! "a" = Some [system_turn]) as Hh
    by (vm_compute; reflexivity).
  destruct (history_only_grows self (failing "") "a" "hello" "a" _ Hh)
    as (suffix & Hs & Hl & _).
  split; [exact Hh | exists suffix; split; [exact Hs | exact Hl]].
Defined.

(** X6: a method call changes nothing for the clients it is not about:
    their history, their Gemini chat and their recorded model are the same
    before and after, whatever the providers answer. *)
Theorem other_clients_untouched p c w id :
  id ≠ subject c w →
  chat_histories (manager (exec p c w)) !! id = chat_histories (manager p) !! id
  ∧ gemini_chats (manager (exec p c w)) !! id = gemini_chats (manager p) !! id
  ∧ client_models (manager (exec p c w)) !! id = client_models (manager p) !! id.
Proof.
  destruct c as [model|client_id message|client_id model|client_id]; simpl; intros Hne.
  - unfold create_session. destruct model; [|destruct (send_message w _ _)]; simpl;
      by simplify_map_eq.
  - destruct (get_ai_response_after (manager p) w client_id message)
      as [_ [-> | [-> | [r ->]]]];
      rewrite ?add_message_lookup, ?add_message_gemini_chats,
              ?add_message_client_models; try done;
      destruct (chat_histories (manager p) !! id); simpl;
      rewrite ?decide_False by done; done.
  - unfold switch_model.
    destruct (client_models (manager p) !! client_id); [|done].
    destruct model; [|destruct (send_message w _ _)]; simpl; by simplify_map_eq.
  - by simplify_map_eq.
Qed.

Lemma other_clients_untouched_witness :
  let p := run [(CreateSession GPT4, answering "a")] in
  "a" ≠ subject (SwitchModel "b" GPT4) (answering "")
  ∧ chat_histories (manager (exec p (SwitchModel "b" GPT4) (answering ""))) !! "a"
    = chat_histories (manager p) !! "a".
Proof.
  intros p.
  assert ("a" ≠ subject (SwitchModel "b" GPT4) (answering "")) as Hne
    by (vm_compute; discriminate).
  destruct (other_clients_untouched p (SwitchModel "b" GPT4) (answering "") "a" Hne)
    as [H _].
  split; [exact Hne | exact H].
Defined.

(** ** The life of a session *)

(** X7: on a store reached from the empty manager, [create_session] under
    an id that no recorded client has, followed by [end_session] of that
    id, gives back the manager as it was, for either model and whether the
    Gemini start returned or raised. *)
Theorem create_then_end_restores trace w model :
  let p := run trace in
  client_models (manager p) !! uuid4 w = None →
  end_session (after (create_session (manager p) w (fresh_chat p) model)) (uuid4 w)
  = manager p.
Proof.
  intros p Hid.
  destruct (unknown_client_stateless trace (uuid4 w) Hid) as [Hh Hc].
  fold p in Hh, Hc. unfold create_session, end_session.
  destruct (manager p) as [hs gs ms]. simpl in *.
  destruct model; [|destruct (send_message w _ _)]; simpl;
    unfold with_client_models, with_gemini_chats, with_chat_histories; simpl;
    rewrite ?delete_insert_id by done; rewrite ?delete_id by done; done.
Qed.

Lemma create_then_end_restores_witness :
  let p := run [(CreateSession GPT4, answering "a")] in
  client_models (manager p) !! "b" = None
  ∧ end_session (after (create_session (manager p) (answering "b") (fresh_chat p) GEMINI))
                "b"
    = manager p.
Proof.
  intros p.
  assert (client_models (manager p) !! uuid4 (answering "b") = None) as Hid
    by (vm_compute; reflexivity).
  split; [exact Hid|].
  exact (create_then_end_restores [(CreateSession GPT4, answering "a")]
           (answering "b") GEMINI Hid).
Defined.

(** X8: on a store reached from the empty manager, [end_session] of an id
    that no recorded client has changes nothing at all. *)
Theorem end_unknown_changes_nothing trace client_id :
  client_models (manager (run trace)) !! client_id = None →
  end_session (manager (run trace)) client_id = manager (run trace).
Proof.
  intros Hid.
  destruct (unknown_client_stateless trace client_id Hid) as [Hh Hc].
  unfold end_session, with_client_models, with_gemini_chats, with_chat_histories.
  destruct (manager (run trace)) as [hs gs ms]. simpl in *.
  by rewrite !delete_id.
Qed.

Lemma end_unknown_changes_nothing_witness :
  let trace := [(CreateSession GEMINI, answering "g")] in
  client_models (manager (run trace)) !! "nobody" = None
  ∧ end_session (manager (run trace)) "nobody" = manager (run trace).
Proof.
  intros trace.
  assert (client_models (manager (run trace)) !! "nobody" = None) as Hid
    by (vm_compute; reflexivity).
  split; [exact Hid | exact (end_unknown_changes_nothing trace "nobody" Hid)].
Defined.

(** X9: sessions can be ended in either order: the store is the same. *)
Theorem end_session_commutes self id1 id2 :
  end_session (end_session self id1) id2 = end_session (end_session self id2) id1.
Proof.
  unfold end_session, with_client_models, with_gemini_chats, with_chat_histories.
  simpl. f_equal; apply delete_delete.
Qed.

(** X10: the id that [POST /start] returns is the one drawn from [uuid4],
    with the model asked for, and it is usable at once: the next message
    under it goes to that model's provider (GPT-4 with the persona turn and
    the user turn, Gemini on the chat just constructed), and a switch under
    it is not refused. *)
Theorem started_session_is_usable p w model client_id m w' message new_model :
  reply (App.start_conversation p w model) = Ok (StartResponse client_id m) →
  let p' := proc (App.start_conversation p w model) in
  client_id = uuid4 w
  ∧ m = model
  ∧ client_models (manager p') !! client_id = Some model
  ∧ made (App.get_message p' w' client_id message) =
      match model with
      | GPT4 => [CompletionsCreate [system_turn; Turn "user" (strip message)]]
      | GEMINI => [SendMessage (fresh_chat p) (strip message)]
      end
  ∧ ∀ detail, reply (App.switch_model p' w' client_id new_model) ≠ Error 400 detail.
Proof.
  unfold App.start_conversation, create_session.
  destruct model; simpl.
  - intros [= <- <-].
    unfold App.get_message, App.switch_model, get_ai_response, get_ai_response_try,
      get_history, switch_model. simpl. simplify_map_eq.
    repeat split.
    + destruct (completions_create w' _) as [[[|[c|] rest]]|]; simpl; done.
    + intros detail. destruct new_model; simpl; [done|].
      destruct (send_message w' _ _); simpl; done.
  - destruct (send_message w (fresh_chat p) SYSTEM_PROMPT) as [resp|]; simpl; [|done].
    intros [= <- <-].
    unfold App.get_message, App.switch_model, get_ai_response, get_ai_response_try,
      switch_model. simpl. simplify_map_eq.
    repeat split.
    + destruct (send_message w' _ (strip message)) as [[[t|]]|]; simpl; done.
    + intros detail. destruct new_model; simpl; [done|].
      destruct (send_message w' _ SYSTEM_PROMPT); simpl; done.
Qed.

Lemma started_session_is_usable_witness :
  let s := App.start_conversation boot (answering "g") GEMINI in
  reply s = Ok (StartResponse "g" GEMINI)
  ∧ made (App.get_message (proc s) (answering "") "g" " hello ")
    = [SendMessage (ChatRef 0) (strip " hello ")].
Proof.
  intros s.
  assert (reply s = Ok (StartResponse "g" GEMINI)) as Hr by (vm_compute; reflexivity).
  destruct (started_session_is_usable boot (answering "g") GEMINI "g" GEMINI
              (answering "") " hello " GPT4 Hr) as (_ & _ & _ & H & _).
  split; [exact Hr | exact H].
Defined.

(** X11: once a session is ended its id is unknown again, for any store:
    a switch under it is refused with the 400, and a message under it is
    sent to GPT-4 with a new one-turn history and the user turn, so nothing
    of the ended conversation reaches a provider. *)
Theorem ended_session_is_unknown p client_id w model message :
  let p' := proc (App.end_conversation p client_id) in
  reply (App.switch_model p' w client_id model) = Error 400 "Invalid client_id"
  ∧ made (App.get_message p' w client_id message)
    = [CompletionsCreate [system_turn; Turn "user" (strip message)]]
  ∧ manager (proc (App.get_message p' w client_id message)) = manager p'.
Proof.
  simpl.
  assert (client_models (end_session (manager p) client_id) !! client_id = None)
    as Hm by (simpl; apply lookup_delete_eq).
  assert (chat_histories (end_session (manager p) client_id) !! client_id = None)
    as Hh by (simpl; apply lookup_delete_eq).
  split; [|split].
  - unfold App.switch_model, switch_model. simpl. by rewrite lookup_delete_eq.
  - unfold App.get_message. simpl.
    by rewrite (get_ai_response_default _ w client_id (strip message) Hm Hh).
  - unfold App.get_message. simpl.
    by rewrite (get_ai_response_default _ w client_id (strip message) Hm Hh).
Qed.

(** ** Provider failures while a chat is started *)

(** X12: when the Gemini start of a switch raises, [POST /switch-model]
    answers the 500 and the client is recorded as a Gemini client all the
    same, while no history and no chat has changed.  The next message of
    that client goes to the chat it had, when it had one, and otherwise
    reaches no provider. *)
Theorem failed_switch_effect p w client_id old w' message :
  client_models (manager p) !! client_id = Some old →
  send_message w (fresh_chat p) SYSTEM_PROMPT = None →
  let s := App.switch_model p w client_id GEMINI in
  reply s = Error 500 "Internal Server Error"
  ∧ client_models (manager (proc s)) = <[client_id := GEMINI]> (client_models (manager p))
  ∧ chat_histories (manager (proc s)) = chat_histories (manager p)
  ∧ gemini_chats (manager (proc s)) = gemini_chats (manager p)
  ∧ made (App.get_message (proc s) w' client_id message) =
      match gemini_chats (manager p) !! client_id with
      | Some chat => [SendMessage chat (strip message)]
      | None => []
      end.
Proof.
  intros Hold Hfail. unfold App.switch_model, switch_model.
  rewrite Hold, Hfail. simpl. repeat split.
  unfold App.get_message, get_ai_response, get_ai_response_try. simpl.
  rewrite lookup_insert_eq. simpl.
  destruct (gemini_chats (manager p) !! client_id) as [chat|]; simpl; [|done].
  destruct (send_message w' chat _) as [[[t|]]|]; simpl; done.
Qed.

Lemma failed_switch_effect_witness :
  let p := run [(CreateSession GEMINI, answering "g")] in
  let s := App.switch_model p (failing "") "g" GEMINI in
  client_models (manager p) !! "g" = Some GEMINI
  ∧ reply s = Error 500 "Internal Server Error"
  ∧ made (App.get_message (proc s) (answering "") "g" "hello")
    = [SendMessage (ChatRef 0) (strip "hello")].
Proof.
  intros p s.
  assert (client_models (manager p) !! "g" = Some GEMINI) as Hm
    by (vm_compute; reflexivity).
  assert (send_message (failing "") (fresh_chat p) SYSTEM_PROMPT = None) as Hf
    by reflexivity.
  assert (gemini_chats (manager p) !! "g" = Some (ChatRef 0)) as Hg
    by (vm_compute; reflexivity).
  destruct (failed_switch_effect p (failing "") "g" GEMINI (answering "") "hello" Hm Hf)
    as (Hr & _ & _ & _ & Hmade).
  rewrite Hg in Hmade.
  split; [exact Hm | split; [exact Hr | exact Hmade]].
Defined.

(** X13: when the Gemini start of [POST /start] raises, the client gets a
    500 and no id, yet the id drawn stays recorded as a Gemini client;
    histories and chats are as before. *)
Theorem failed_start_effect p w :
  send_message w (fresh_chat p) SYSTEM_PROMPT = None →
  let s := App.start_conversation p w GEMINI in
  reply s = Error 500 "Internal Server Error"
  ∧ client_models (manager (proc s)) = <[uuid4 w := GEMINI]> (client_models (manager p))
  ∧ chat_histories (manager (proc s)) = chat_histories (manager p)
  ∧ gemini_chats (manager (proc s)) = gemini_chats (manager p).
Proof.
  intros Hfail. unfold App.start_conversation, create_session.
  rewrite Hfail. simpl. repeat split.
Qed.

Lemma failed_start_effect_witness :
  let s := App.start_conversation boot (failing "g") GEMINI in
  send_message (failing "g") (fresh_chat boot) SYSTEM_PROMPT = None
  ∧ reply s = Error 500 "Internal Server Error"
  ∧ client_models (manager (proc s)) = <["g" := GEMINI]> (client_models (manager boot)).
Proof.
  intros s.
  assert (send_message (failing "g") (fresh_chat boot) SYSTEM_PROMPT = None) as Hf
    by reflexivity.
  destruct (failed_start_effect boot (failing "g") Hf) as (Hr & Hm & _).
  split; [exact Hf | split; [exact Hr | exact Hm]].
Defined.

(** ** What every reachable store satisfies *)

(** X14: after any sequence of method calls, a client with a history or
    with a Gemini chat is a recorded client, and a client recorded as a
    GPT-4 client has a history. *)
Theorem state_belongs_to_recorded_clients trace client_id :
  let self := manager (run trace) in
  (is_Some (chat_histories self !! client_id) → is_Some (client_models self !! client_id))
  ∧ (is_Some (gemini_chats self !! client_id) → is_Some (client_models self !! client_id))
  ∧ (client_models self !! client_id = Some GPT4 →
     is_Some (chat_histories self !! client_id)).
Proof.
  intros self. pose proof (run_consistent trace) as Hp. fold self.
  pose proof (histories_known _ Hp client_id) as Hh.
  pose proof (chats_known _ Hp client_id) as Hc.
  pose proof (histories_kept _ Hp client_id) as Hk.
  fold self in Hh, Hc, Hk.
  destruct (client_models self !! client_id) as [m|].
  - split; [eauto|]. split; [eauto|done].
  - split; [|split; [|done]].
    + intros [h Hsome]. by rewrite Hh in Hsome.
    + intros [c Hsome]. by rewrite Hc in Hsome.
Qed.

Lemma state_belongs_to_recorded_clients_witness :
  let self := manager (run [(CreateSession GPT4, answering "a");
                            (SwitchModel "a" GEMINI, failing "")]) in
  is_Some (chat_histories self !! "a") ∧ is_Some (client_models self !! "a").
Proof.
  intros self.
  assert (is_Some (chat_histories self !! "a")) as Hh
    by (vm_compute; eexists; reflexivity).
  destruct (state_belongs_to_recorded_clients
              [(CreateSession GPT4, answering "a"); (SwitchModel "a" GEMINI, failing "")]
              "a") as (H & _ & _).
  split; [exact Hh | exact (H Hh)].
Defined.

(** X15: after any sequence of method calls, no Gemini chat is stored
    under two client ids, and every stored chat is one that has been
    constructed. *)
Theorem chats_are_not_shared trace id1 id2 chat :
  gemini_chats (manager (run trace)) !! id1 = Some chat →
  gemini_chats (manager (run trace)) !! id2 = Some chat →
  id1 = id2 ∧ (chat_oid chat < next_chat (run trace))%nat.
Proof.
  intros H1 H2. pose proof (run_consistent trace) as Hp. split.
  - exact (chats_distinct _ Hp id1 id2 chat H1 H2).
  - exact (chats_allocated _ Hp id1 chat H1).
Qed.

Lemma chats_are_not_shared_witness :
  let trace := [(CreateSession GEMINI, answering "g");
                (CreateSession GEMINI, answering "h")] in
  gemini_chats (manager (run trace)) !! "h" = Some (ChatRef 1)
  ∧ (chat_oid (ChatRef 1) < next_chat (run trace))%nat.
Proof.
  intros trace.
  assert (gemini_chats (manager (run trace)) !! "h" = Some (ChatRef 1)) as Hh
    by (vm_compute; reflexivity).
  destruct (chats_are_not_shared trace "h" "h" (ChatRef 1) Hh Hh) as [_ H].
  split; [exact Hh | exact H].
Defined.

(** ** The shape of stored histories *)

Section Dialogues.

Lemma answers_follow_user prev h m :
  answers_follow prev h = true →
  answers_follow prev (h ++ [Turn "user" m]) = true.
Proof.
  revert prev. induction h as [|t h IH]; simpl; intros prev; [done|].
  intros [Ht Hh]%andb_prop. rewrite Ht. simpl. by apply IH.
Qed.

Lemma answers_follow_answer prev h m r :
  answers_follow prev h = true →
  answers_follow prev ((h ++ [Turn "user" m]) ++ [Turn "assistant" r]) = true.
Proof.
  revert prev. induction h as [|t h IH]; simpl; intros prev; [done|].
  intros [Ht Hh]%andb_prop. rewrite Ht. simpl. by apply IH.
Qed.

Lemma dialogue_user h m :
  dialogue h = true → dialogue (h ++ [Turn "user" m]) = true.
Proof.
  destruct h as [|t rest]; [done|]. simpl.
  intros [Ht Hrest]%andb_prop. rewrite Ht. simpl. by apply answers_follow_user.
Qed.

Lemma dialogue_answer h m r :
  dialogue h = true →
  dialogue ((h ++ [Turn "user" m]) ++ [Turn "assistant" r]) = true.
Proof.
  destruct h as [|t rest]; [done|]. simpl.
  intros [Ht Hrest]%andb_prop. rewrite Ht. simpl. by apply answers_follow_answer.
Qed.

(** What [answers_follow] says turn by turn. *)
Lemma answers_follow_inv prev h i t :
  answers_follow prev h = true → h !! i = Some t →
  role t = "user"
  ∨ (role t = "assistant"
     ∧ match i with
       | 0 => prev = "user"
       | S j => ∃ u, h !! j = Some u ∧ role u = "user"
       end).
Proof.
  revert prev i. induction h as [|t0 h IH]; intros prev i; [done|].
  simpl. intros [Ht Hh]%andb_prop. destruct i as [|i]; simpl.
  - intros [= ->]. apply orb_prop in Ht as [Hu | [Ha Hp]%andb_prop].
    + left. by apply String.eqb_eq.
    + right. split; by apply String.eqb_eq.
  - intros Hi. destruct (IH _ _ Hh Hi) as [Hu | [Ha Hprev]]; [by left|].
    right. split; [done|]. destruct i as [|i]; [|done].
    exists t0. by split.
Qed.

Lemma exec_dialogues p c w : dialogues p → dialogues (exec p c w).
Proof.
  intros Hp. destruct c as [model|client_id message|client_id model|client_id];
    unfold dialogues; simpl; intros id h.
  - unfold create_session. destruct model; [|destruct (send_message w _ _)]; simpl;
      try apply Hp.
    intros Hh. destruct (decide (uuid4 w = id)); simplify_map_eq; [done|].
    by eapply Hp.
  - destruct (get_ai_response_after (manager p) w client_id message)
      as [_ [-> | [-> | [r ->]]]]; [apply Hp|..];
      rewrite ?add_message_lookup;
      destruct (chat_histories (manager p) !! id) as [h0|] eqn:Hh0; simpl; try done;
      specialize (Hp id h0 Hh0); intros [= <-]; repeat case_decide;
      auto using dialogue_user, dialogue_answer.
  - unfold switch_model.
    destruct (client_models (manager p) !! client_id); [|apply Hp].
    destruct model; [|destruct (send_message w _ _)]; simpl; try apply Hp;
      intros Hh; destruct (decide (client_id = id)); simplify_map_eq; try done;
      by eapply Hp.
  - intros Hh. destruct (decide (client_id = id)); simplify_map_eq. by eapply Hp.
Qed.

Lemma run_from_dialogues trace p : dialogues p → dialogues (run_from p trace).
Proof.
  revert p. induction trace as [|[c w] trace IH]; simpl; intros p Hp; [done|].
  by apply IH, exec_dialogues.
Qed.

End Dialogues.

(** X16: after any sequence of method calls, every stored history is the
    persona turn followed by user and assistant turns only, and each
    assistant turn comes right after a user turn: no answer is stored
    without the message it answers, and none twice. *)
Theorem stored_history_is_dialogue trace client_id h :
  chat_histories (manager (run trace)) !! client_id = Some h →
  dialogue h = true
  ∧ h !! 0 = Some system_turn
  ∧ ∀ i t, h !! S i = Some t →
      role t = "user"
      ∨ (role t = "assistant" ∧ ∃ u, h !! i = Some u ∧ role u = "user").
Proof.
  intros Hh.
  assert (dialogue h = true) as Hd.
  { apply (run_from_dialogues trace boot) in Hh; [done|].
    intros id h0. simpl. by rewrite lookup_empty. }
  split; [done|]. destruct h as [|t0 rest]; [done|]. simpl in Hd.
  apply andb_prop in Hd as [Ht0 Hrest]. apply bool_decide_eq_true in Ht0. subst t0.
  split; [done|]. intros i t Hi. simpl in Hi.
  destruct (answers_follow_inv _ _ _ _ Hrest Hi) as [Hu | [Ha Hprev]]; [by left|].
  right. split; [done|]. destruct i as [|i]; [done|].
  destruct Hprev as (u & Hu & Hr). by exists u.
Qed.

Lemma stored_history_is_dialogue_witness :
  let trace := [(CreateSession GPT4, answering "a");
                (GetAIResponse "a" "I feel anxious", failing "");
                (GetAIResponse "a" "I feel anxious", answering "")] in
  let h := [system_turn; Turn "user" "I feel anxious"; Turn "user" "I feel anxious";
            Turn "assistant" "I hear you."] in
  chat_histories (manager (run trace)) !! "a" = Some h ∧ dialogue h = true.
Proof.
  intros trace h.
  assert (chat_histories (manager (run trace)) !! "a" = Some h) as Hh
    by (vm_compute; reflexivity).
  destruct (stored_history_is_dialogue trace "a" h Hh) as [H _].
  split; [exact Hh | exact H].
Defined.

(** ** One provider state per client *)

Section Exclusive.

Lemma exec_exclusive p c w :
  consistent p → exclusive p →
  match c with
  | CreateSession _ => client_models (manager p) !! uuid4 w = None
  | _ => True
  end →
  exclusive (exec p c w).
Proof.
  intros Hp Hx Hfresh.
  destruct c as [model|client_id message|client_id model|client_id];
    unfold exclusive; simpl; intros id.
  - pose proof (histories_known _ Hp _ Hfresh) as Hh.
    pose proof (chats_known _ Hp _ Hfresh) as Hc.
    unfold create_session. destruct model; [|destruct (send_message w _ _)]; simpl;
      try apply Hx; destruct (decide (uuid4 w = id)); simplify_map_eq; auto.
  - destruct (get_ai_response_after (manager p) w client_id message)
      as [_ [-> | [-> | [r ->]]]]; [apply Hx|..];
      rewrite ?add_message_lookup, ?add_message_gemini_chats;
      destruct (Hx id) as [-> | ->]; auto.
  - unfold switch_model.
    destruct (client_models (manager p) !! client_id); [|apply Hx].
    destruct model; [|destruct (send_message w _ _)]; simpl; try apply Hx;
      destruct (decide (client_id = id)); simplify_map_eq; auto.
  - destruct (decide (client_id = id)); simplify_map_eq; auto.
Qed.

Lemma run_from_exclusive trace p :
  consistent p → exclusive p → fresh_ids_from p trace = true →
  exclusive (run_from p trace).
Proof.
  revert p. induction trace as [|[c w] trace IH]; simpl; intros p Hp Hx Hf; [done|].
  apply andb_prop in Hf as [Hc Hf].
  apply IH; [by apply exec_consistent| |done].
  apply exec_exclusive; [done..|].
  destruct c; [|done..]. by apply bool_decide_eq_true in Hc.
Qed.

End Exclusive.

(** X17: as long as no [create_session] draws the id of a client recorded
    at that time, no client ever has a history and a Gemini chat at once,
    whatever the providers answer. *)
Theorem one_provider_state_per_client trace client_id :
  fresh_ids trace = true →
  chat_histories (manager (run trace)) !! client_id = None
  ∨ gemini_chats (manager (run trace)) !! client_id = None.
Proof.
  intros Hf. apply (run_from_exclusive trace boot); [apply boot_consistent| |done].
  intros id. left. simpl. apply lookup_empty.
Qed.

Lemma one_provider_state_per_client_witness :
  let trace := [(CreateSession GPT4, answering "a");
                (SwitchModel "a" GEMINI, answering "");
                (SwitchModel "a" GPT4, answering "");
                (SwitchModel "a" GEMINI, failing "")] in
  fresh_ids trace = true
  ∧ (chat_histories (manager (run trace)) !! "a" = None
     ∨ gemini_chats (manager (run trace)) !! "a" = None).
Proof.
  intros trace.
  assert (fresh_ids trace = true) as Hf by (vm_compute; reflexivity).
  split; [exact Hf | exact (one_provider_state_per_client trace "a" Hf)].
Defined.

(** X18: on a store reached from the empty manager, whatever
    [POST /message] sends to GPT-4 begins with the persona turn, holds no
    other system turn and ends with the user turn of the trimmed message. *)
Theorem gpt4_call_is_persona_first trace w client_id message messages :
  CompletionsCreate messages ∈ made (App.get_message (run trace) w client_id message) →
  ∃ middle,
    messages = system_turn :: middle ++ [Turn "user" (strip message)]
    ∧ Forall (λ t, role t ≠ "system") middle.
Proof.
  unfold App.get_message, get_ai_response, get_ai_response_try, get_history. simpl.
  destruct (default GPT4 (client_models (manager (run trace)) !! client_id)).
  - assert (∃ middle, default [system_turn]
                        (chat_histories (manager (run trace)) !! client_id)
                      = system_turn :: middle
                      ∧ Forall (λ t, role t ≠ "system") middle) as (middle & -> & Hm).
    { destruct (chat_histories (manager (run trace)) !! client_id) as [h|] eqn:Hh.
      - apply persona_headed_inv.
        exact (histories_headed _ (run_consistent trace) client_id h Hh).
      - by exists []. }
    intros Hin. exists middle. split; [|done].
    destruct (completions_create w _) as [[[|[c|] rest]]|]; simpl in Hin;
      apply list_elem_of_singleton in Hin; by injection Hin as ->.
  - destruct (gemini_chats (manager (run trace)) !! client_id) as [chat|]; simpl.
    + destruct (send_message w chat _) as [[[t|]]|]; simpl;
        intros Hin; apply list_elem_of_singleton in Hin; done.
    + intros Hin. by apply not_elem_of_nil in Hin.
Qed.

Lemma gpt4_call_is_persona_first_witness :
  let trace := [(CreateSession GPT4, answering "a");
                (GetAIResponse "a" "I feel anxious", answering "")] in
  let messages := [system_turn; Turn "user" "I feel anxious";
                   Turn "assistant" "I hear you."; Turn "user" "hello"] in
  CompletionsCreate messages ∈ made (App.get_message (run trace) (answering "") "a" " hello")
  ∧ ∃ middle,
      messages = system_turn :: middle ++ [Turn "user" (strip " hello")]
      ∧ Forall (λ t, role t ≠ "system") middle.
Proof.
  intros trace messages.
  assert (CompletionsCreate messages
          ∈ made (App.get_message (run trace) (answering "") "a" " hello")) as Hin
    by (vm_compute; apply list_elem_of_here).
  split; [exact Hin|].
  exact (gpt4_call_is_persona_first trace (answering "") "a" " hello" messages Hin).
Defined.

(** ** White space around a message *)

Section Padding.

Lemma lstrip_all_space s : all_space s = true → lstrip s = EmptyString.
Proof.
  induction s as [|c s IH]; simpl; [done|].
  intros [Hc Hs]%andb_prop. rewrite Hc. by apply IH.
Qed.

Lemma rstrip_all_space s : all_space s = true → rstrip s = EmptyString.
Proof.
  induction s as [|c s IH]; simpl; [done|].
  intros [Hc Hs]%andb_prop. by rewrite (IH Hs), Hc.
Qed.

Lemma lstrip_app s t :
  lstrip (s +:+ t) = if all_space s then lstrip t else lstrip s +:+ t.
Proof.
  induction s as [|c s IH]; [done|].
  change (String c s +:+ t) with (String c (s +:+ t)). simpl.
  destruct (isspace c); simpl; done.
Qed.

Lemma rstrip_app s t : all_space t = true → rstrip (s +:+ t) = rstrip s.
Proof.
  intros Ht. induction s as [|c s IH]; [by apply rstrip_all_space|].
  change (String c s +:+ t) with (String c (s +:+ t)). simpl. by rewrite IH.
Qed.

Lemma strip_padding pre s post :
  all_space pre = true → all_space post = true →
  strip (pre +:+ s +:+ post) = strip s.
Proof.
  intros Hpre Hpost. unfold strip.
  rewrite lstrip_app, Hpre, lstrip_app.
  destruct (all_space s) eqn:Hs.
  - by rewrite (lstrip_all_space post), (lstrip_all_space s).
  - by apply rstrip_app.
Qed.

End Padding.

(** X19: [POST /message] does not see the white space around a message:
    two messages that differ only by white space before and after get the
    same provider calls, the same reply and the same store. *)
Theorem get_message_ignores_padding p w client_id pre message post :
  all_space pre = true → all_space post = true →
  App.get_message p w client_id (pre +:+ message +:+ post)
  = App.get_message p w client_id message.
Proof.
  intros Hpre Hpost. unfold App.get_message.
  by rewrite (strip_padding pre message post Hpre Hpost).
Qed.

Lemma get_message_ignores_padding_witness :
  all_space "  " = true ∧ all_space "
" = true
  ∧ App.get_message boot (answering "") "a" ("  " +:+ "hello there" +:+ "
")
    = App.get_message boot (answering "") "a" "hello there".
Proof.
  assert (all_space "  " = true) as Hpre by reflexivity.
  assert (all_space "
" = true) as Hpost by reflexivity.
  split; [exact Hpre | split; [exact Hpost|]].
  exact (get_message_ignores_padding boot (answering "") "a" "  " "hello there" "
" Hpre Hpost).
Defined.

(** ** Sending again after a failure *)

Section Retry.

(** A GPT-4 client with a history: the call made, and the history after a
    reply. *)
Lemma gpt4_send_from self w client_id message h :
  client_models self !! client_id = Some GPT4 →
  chat_histories self !! client_id = Some h →
  let o := get_ai_response self w client_id message in
  calls o = [CompletionsCreate (h ++ [Turn "user" message])]
  ∧ ∀ response model,
      value o = Return (response, model) →
      chat_histories (after o) !! client_id
      = Some ((h ++ [Turn "user" message]) ++ [Turn "assistant" response]).
Proof.
  intros Hm Hh. unfold get_ai_response, get_ai_response_try, get_history, add_message.
  rewrite Hm, Hh. simpl.
  destruct (completions_create w _) as [[[|[c|] rest]]|]; simpl;
    (split; [done|]); try done.
  rewrite lookup_insert_eq. simpl. intros response model [= <- <-].
  by rewrite lookup_insert_eq.
Qed.

Lemma gpt4_failed_send_after self w client_id message h e :
  client_models self !! client_id = Some GPT4 →
  chat_histories self !! client_id = Some h →
  value (get_ai_response self w client_id message) = Raise e →
  after (get_ai_response self w client_id message)
  = with_chat_histories (<[client_id := h ++ [Turn "user" message]]>) self.
Proof.
  intros Hm Hh. unfold get_ai_response, get_ai_response_try, get_history, add_message.
  rewrite Hm, Hh. simpl.
  destruct (completions_create w _) as [[[|[c|] rest]]|]; simpl; done.
Qed.

End Retry.

(** X21: when a GPT-4 exchange fails and the same message is sent again,
    the second call carries the user turn twice, and once it succeeds the
    history holds the old turns, the user turn twice and the answer. *)
Theorem retry_repeats_user_turn self w1 w2 client_id message h e :
  client_models self !! client_id = Some GPT4 →
  chat_histories self !! client_id = Some h →
  value (get_ai_response self w1 client_id message) = Raise e →
  let o1 := get_ai_response self w1 client_id message in
  let o2 := get_ai_response (after o1) w2 client_id message in
  calls o2 = [CompletionsCreate (h ++ [Turn "user" message; Turn "user" message])]
  ∧ ∀ response model,
      value o2 = Return (response, model) →
      chat_histories (after o2) !! client_id
      = Some (h ++ [Turn "user" message; Turn "user" message;
                    Turn "assistant" response]).
Proof.
  intros Hm Hh Hfail o1 o2. subst o1 o2.
  rewrite (gpt4_failed_send_after self w1 client_id message h e Hm Hh Hfail).
  destruct (gpt4_send_from
              (with_chat_histories (<[client_id := h ++ [Turn "user" message]]>) self)
              w2 client_id message (h ++ [Turn "user" message])) as [Hc Hok].
  - done.
  - simpl. apply lookup_insert_eq.
  - rewrite <- app_assoc in Hc. split; [done|].
    intros response model Hv. rewrite (Hok response model Hv).
    by rewrite <- !app_assoc.
Qed.

Lemma retry_repeats_user_turn_witness :
  let self := manager (run [(CreateSession GPT4, answering "a")]) in
  let o1 := get_ai_response self (failing "") "a" "hello" in
  let o2 := get_ai_response (after o1) (answering "") "a" "hello" in
  client_models self !! "a" = Some GPT4
  ∧ value o1 = Raise (HTTPException 500 "Internal Server Error")
  ∧ calls o2 = [CompletionsCreate ([system_turn] ++ [Turn "user" "hello"; Turn "user" "hello"])].
Proof.
  intros self o1 o2.
  assert (client_models self !! "a" = Some GPT4) as Hm by (vm_compute; reflexivity).
  assert (chat_histories self !! "a" = Some [system_turn]) as Hh
    by (vm_compute; reflexivity).
  assert (value o1 = Raise (HTTPException 500 "Internal Server Error")) as Hv
    by (vm_compute; reflexivity).
  destruct (retry_repeats_user_turn self (failing "") (answering "") "a" "hello"
              [system_turn] _ Hm Hh Hv) as [Hc _].
  split; [exact Hm | split; [exact Hv | exact Hc]].
Defined.
